(** * EEMS_Pro/version.py: the version module and its release log

    [version.py] is a flat Python module: a sequence of assignments of string
    literals to [__version__], interleaved with blank lines and comment
    lines; the three oldest assignments are commented out.  The module text
    is embedded line by line, together with an interpreter for the fragment
    of Python the file is written in (blank lines, comments, assignment of a
    double-quoted literal to a name), so that the binding of [__version__]
    is computed from the text and not assumed. *)

From Stdlib Require Import Ascii String NArith.
From stdpp Require Import gmap strings list sorting.

Open Scope string_scope.

(** ** The text of the module *)

Module Source.

(** The double quote character, and a literal between double quotes. *)
Definition dq : string := String (ascii_of_nat 34) EmptyString.
Definition quoted (s : string) : string := dq +:+ s +:+ dq.

(** The 38 lines of [EEMS_Pro/version.py], trailing blanks included. *)
Definition version_py : list string :=
  [ "__version__ = " +:+ quoted "1.0.4"
  ; ""
  ; "# Pandas version 2.0.2 (which is distributed with later versions of ArcGIS Pro) has a bug described here: "
  ; "# https://github.com/pandas-dev/pandas/issues/46178 "
  ; "# This was causing an error during the SPDF join (merge), likely because the values in the CSVID field of the EEMS "
  ; "# output CSV were being cast to floats during the pd.read_csv() call. "
  ; "# The fix was to explicitly cast the CSVID field to an Int32 within the pd.read_csv() call. "
  ; ""
  ; "__version__ = " +:+ quoted "1.0.3"
  ; ""
  ; "# Use &MediumSpace; instead of &nbsp; in the command file metadata to allow text wrapping in custom web applications.     "
  ; "__version__ = " +:+ quoted "1.0.2"
  ; ""
  ; "# Fix NoneType error introduced by writing header to command file   "
  ; ""
  ; "__version__ = " +:+ quoted "1.0.1"
  ; ""
  ; "# Check for Non-ASCII Characters "
  ; ""
  ; "__version__ = " +:+ quoted "1.0.0"
  ; ""
  ; "# Production Release"
  ; ""
  ; "__version__ = " +:+ quoted "0.9.0"
  ; ""
  ; "# Internal Release for BETA Testing"
  ; ""
  ; "#__version__ = " +:+ quoted "0.0.3"
  ; ""
  ; "# Add ArcGIS Desktop Compatibility "
  ; ""
  ; "#__version__ = " +:+ quoted "0.0.2"
  ; ""
  ; "# Implement Spatially Enabled Data Frame/Pandas Join"
  ; ""
  ; "#__version__ = " +:+ quoted "0.0.1"
  ; ""
  ; "# Initialize ArcGIS Pro Compatible Version  "
  ].

End Source.

(** ** The Python fragment: lexing one line *)

Module Py.

(** The statements of the fragment. *)
Inductive stmt : Type :=
| SBlank
| SComment (text : string)
| SAssign (target value : string).

(** What compiling or reading the module can raise. *)
Inductive error : Type :=
| SyntaxError (line : string)
| IndentationError (line : string)
| AttributeError (name : string).

Inductive result (A : Type) : Type :=
| Ok (a : A)
| Raise (e : error).
Arguments Ok {A} a.
Arguments Raise {A} e.

Definition bind {A B} (r : result A) (k : A -> result B) : result B :=
  match r with
  | Ok a => k a
  | Raise e => Raise e
  end.

Notation "'do' x <- r ; k" := (bind r (fun x => k))
  (at level 10, x name, r at level 100, k at level 200).

Definition code (c : ascii) : N := N_of_ascii c.

Definition is_space (c : ascii) : bool :=
  bool_decide (code c = 32%N) || bool_decide (code c = 9%N).
Definition is_digit (c : ascii) : bool :=
  bool_decide (48 <= code c)%N && bool_decide (code c <= 57)%N.
Definition is_alpha (c : ascii) : bool :=
  (bool_decide (65 <= code c)%N && bool_decide (code c <= 90)%N)
  || (bool_decide (97 <= code c)%N && bool_decide (code c <= 122)%N)
  || bool_decide (code c = 95%N).
Definition is_hash (c : ascii) : bool := bool_decide (code c = 35%N).
Definition is_equals (c : ascii) : bool := bool_decide (code c = 61%N).
Definition is_dquote (c : ascii) : bool := bool_decide (code c = 34%N).
Definition is_backslash (c : ascii) : bool := bool_decide (code c = 92%N).

(** Drop leading blanks. *)
Fixpoint skip_ws (s : string) : string :=
  match s with
  | String c s' => if is_space c then skip_ws s' else s
  | EmptyString => EmptyString
  end.

(** The longest prefix of identifier characters, and the rest. *)
Fixpoint ident_tail (s : string) : string * string :=
  match s with
  | String c s' =>
      if is_alpha c || is_digit c
      then let '(i, r) := ident_tail s' in (String c i, r)
      else (EmptyString, s)
  | EmptyString => (EmptyString, EmptyString)
  end.

(** An identifier starts with a letter or an underscore. *)
Definition lex_ident (s : string) : option (string * string) :=
  match s with
  | String c _ => if is_alpha c then Some (ident_tail s) else None
  | EmptyString => None
  end.

(** The body of a double-quoted literal up to its closing quote, and the
    rest; escapes are outside the fragment. *)
Fixpoint lex_until_quote (s : string) : option (string * string) :=
  match s with
  | String c s' =>
      if is_dquote c then Some (EmptyString, s')
      else if is_backslash c then None
      else match lex_until_quote s' with
           | Some (b, r) => Some (String c b, r)
           | None => None
           end
  | EmptyString => None
  end.

Definition lex_literal (s : string) : option (string * string) :=
  match s with
  | String c s' => if is_dquote c then lex_until_quote s' else None
  | EmptyString => None
  end.

(** What may follow a statement on its line: blanks, then nothing or a
    comment. *)
Definition line_end (s : string) : bool :=
  match skip_ws s with
  | EmptyString => true
  | String c _ => is_hash c
  end.

(** [NAME = "literal"], starting in the first column of [s]. *)
Definition lex_assign (s : string) : option (string * string) :=
  match lex_ident s with
  | None => None
  | Some (name, r1) =>
      match skip_ws r1 with
      | String c r2 =>
          if is_equals c then
            match lex_literal (skip_ws r2) with
            | Some (v, r3) =>
                if line_end r3 then Some (name, v) else None
            | None => None
            end
          else None
      | EmptyString => None
      end
  end.

(** One physical line of the module.  A line of blanks is ignored, a line
    whose first non-blank character is [#] is a comment, a statement must
    start in the first column. *)
Definition parse_line (l : string) : result stmt :=
  match skip_ws l with
  | EmptyString => Ok SBlank
  | String c body =>
      if is_hash c then Ok (SComment body)
      else match l with
           | String c0 _ =>
               if is_space c0 then Raise (IndentationError l)
               else match lex_assign l with
                    | Some (x, v) => Ok (SAssign x v)
                    | None => Raise (SyntaxError l)
                    end
           | EmptyString => Ok SBlank
           end
  end.

(** The module is compiled as a whole before any statement runs. *)
Fixpoint parse_module (src : list string) : result (list stmt) :=
  match src with
  | [] => Ok []
  | l :: rest =>
      do st <- parse_line l;
      do sts <- parse_module rest;
      Ok (st :: sts)
  end.

(** The module namespace, as far as the statements of the fragment see it:
    names bound to string values.  Entries the Python runtime keeps in a
    namespace on its own account ([__builtins__]) are not string bindings and
    are not represented; no statement of the fragment reads or writes
    them. *)
Abbreviation globals := (gmap string string).

Definition exec_stmt (g : globals) (st : stmt) : globals :=
  match st with
  | SBlank | SComment _ => g
  | SAssign x v => <[x := v]> g
  end.

(** Statements run top to bottom. *)
Definition run (sts : list stmt) (g : globals) : globals :=
  foldl exec_stmt g sts.

(** Compile the text, then run its statements on the string bindings of
    [g]. *)
Definition exec_module (src : list string) (g : globals) : result globals :=
  do sts <- parse_module src;
  Ok (run sts g).

(** Reading an attribute of the module after it ran. *)
Definition getattr (g : globals) (x : string) : result string :=
  match g !! x with
  | Some v => Ok v
  | None => Raise (AttributeError x)
  end.

(** Importing the module into the namespace [g] and reading
    [__version__]. *)
Definition current_version (src : list string) (g : globals) : result string :=
  do g' <- exec_module src g;
  getattr g' "__version__".

End Py.

(** ** Release records *)

Module Log.
Import Py.

(** One entry of the version history.  [released] is false when the
    assignment is commented out; [line_no] is the index of the assignment's
    line in the file (first line 0); [note] is the run of comment lines
    that follows it. *)
Record ReleaseRecord : Type := mkRecord {
  version : string;
  note : list string;
  released : bool;
  line_no : nat
}.

(** A line holds a release record when it assigns [__version__], either
    live or behind one comment marker. *)
Definition scan_record (l : string) : option (bool * string) :=
  match parse_line l with
  | Ok (SAssign x v) =>
      if bool_decide (x = "__version__") then Some (true, v) else None
  | Ok (SComment body) =>
      match lex_assign body with
      | Some (x, v) =>
          if bool_decide (x = "__version__") then Some (false, v) else None
      | None => None
      end
  | _ => None
  end.

(** The comment lines up to the next record, markers removed. *)
Fixpoint notes_of (src : list string) : list string :=
  match src with
  | [] => []
  | l :: rest =>
      match scan_record l with
      | Some _ => []
      | None =>
          match parse_line l with
          | Ok (SComment body) => body :: notes_of rest
          | _ => notes_of rest
          end
      end
  end.

Fixpoint records_from (n : nat) (src : list string) : list ReleaseRecord :=
  match src with
  | [] => []
  | l :: rest =>
      match scan_record l with
      | Some (rel, v) =>
          mkRecord v (notes_of rest) rel n :: records_from (S n) rest
      | None => records_from (S n) rest
      end
  end.

(** The records of the file, in file order (top to bottom). *)
Definition release_log : list ReleaseRecord :=
  records_from 0 Source.version_py.

(** Whether a line carries the leading comment marker: its first
    non-blank character is [#]. *)
Definition commented (l : string) : bool :=
  match skip_ws l with
  | String c _ => is_hash c
  | EmptyString => false
  end.

(** A commented-out assignment of [__version__]. *)
Definition is_draft (l : string) : bool :=
  match scan_record l with
  | Some (false, _) => true
  | _ => false
  end.

(** The texts of the comment lines of [src], markers removed, in file
    order. *)
Fixpoint comment_bodies (src : list string) : list string :=
  match src with
  | [] => []
  | l :: rest =>
      match parse_line l with
      | Ok (SComment body) => body :: comment_bodies rest
      | _ => comment_bodies rest
      end
  end.

(** The lines of [src] the given records were read from. *)
Definition record_lines (src : list string) (rs : list ReleaseRecord) : list string :=
  omap (fun r => src !! line_no r) rs.

(** The file with its commented-out assignments deleted. *)
Definition without_drafts (src : list string) : list string :=
  filter (fun l => is_draft l = false) src.

End Log.

(** ** Semantic versions *)

Module SemVer.
Import Py.

Definition is_dot (c : ascii) : bool := bool_decide (code c = 46%N).

(** The fields of [s] between dots; a string without dot is one field. *)
Fixpoint split_dots (s : string) : list string :=
  match s with
  | EmptyString => [EmptyString]
  | String c s' =>
      if is_dot c then EmptyString :: split_dots s'
      else match split_dots s' with
           | f :: fs => String c f :: fs
           | [] => [String c EmptyString]
           end
  end.

(** Decimal value of a run of digits read left to right. *)
Fixpoint digits_value (acc : N) (s : string) : option N :=
  match s with
  | EmptyString => Some acc
  | String c s' =>
      if is_digit c
      then digits_value (10 * acc + (code c - 48))%N s'
      else None
  end.

Definition parse_number (s : string) : option N :=
  match s with
  | EmptyString => None
  | _ => digits_value 0%N s
  end.

Fixpoint parse_fields (fs : list string) : option (list N) :=
  match fs with
  | [] => Some []
  | f :: fs' =>
      match parse_number f, parse_fields fs' with
      | Some n, Some ns => Some (n :: ns)
      | _, _ => None
      end
  end.

Definition parse_version (s : string) : option (list N) :=
  parse_fields (split_dots s).

(** Dot-separated, non-empty, every field a decimal non-negative integer. *)
Definition is_semver (s : string) : bool :=
  match parse_version s with
  | Some (_ :: _) => true
  | _ => false
  end.

(** Component-wise comparison, first difference decides, a proper prefix
    is smaller. *)
Fixpoint compare_fields (a b : list N) : comparison :=
  match a, b with
  | [], [] => Eq
  | [], _ :: _ => Lt
  | _ :: _, [] => Gt
  | x :: a', y :: b' =>
      match (x ?= y)%N with
      | Eq => compare_fields a' b'
      | c => c
      end
  end.

Definition semver_lt (s t : string) : bool :=
  match parse_version s, parse_version t with
  | Some a, Some b =>
      match compare_fields a b with Lt => true | _ => false end
  | _, _ => false
  end.

End SemVer.

(** ** Evaluations of the module, and the newest release *)

Module Eval.
Import Py Log SemVer.

(** One run of a statement list, statement by statement. *)
Inductive steps : list stmt -> globals -> globals -> Prop :=
| steps_done g : steps [] g g
| steps_next st sts g g' :
    steps sts (exec_stmt g st) g' -> steps (st :: sts) g g'.

(** One evaluation of the module text in the namespace [g], followed by
    the read of [__version__]: either compilation raises, or the
    statements run and the attribute is read from the final namespace. *)
Inductive evaluates (src : list string) (g : globals) : result string -> Prop :=
| eval_raise e :
    parse_module src = Raise e -> evaluates src g (Raise e)
| eval_run sts g' :
    parse_module src = Ok sts -> steps sts g g' ->
    evaluates src g (getattr g' "__version__").

(** The values the live statements assign to [x], in execution order. *)
Fixpoint assigned (x : string) (sts : list stmt) : list string :=
  match sts with
  | [] => []
  | SAssign y v :: sts' =>
      if bool_decide (y = x) then v :: assigned x sts' else assigned x sts'
  | _ :: sts' => assigned x sts'
  end.

(** The names the live statements assign, in execution order. *)
Fixpoint targets (sts : list stmt) : list string :=
  match sts with
  | [] => []
  | SAssign y _ :: sts' => y :: targets sts'
  | _ :: sts' => targets sts'
  end.

(** The record with the greater version; the first on a tie. *)
Definition newer (a b : ReleaseRecord) : ReleaseRecord :=
  if semver_lt (version a) (version b) then b else a.

(** The released record with the greatest version, wherever it stands in
    the file. *)
Definition newest_released (log : list ReleaseRecord) : option ReleaseRecord :=
  match filter (fun r => released r = true) log with
  | [] => None
  | r :: rs => Some (foldl newer r rs)
  end.

End Eval.

(** * Properties *)

Import Source Py Log SemVer Eval.

(** ** The interpreter *)

Section Interpreter.

Implicit Types (g : globals) (sts : list stmt) (src : list string).

(** Running a statement list reads its head first. *)
Lemma run_cons st sts g : run (st :: sts) g = run sts (exec_stmt g st).
Proof. reflexivity. Qed.

(** The last live assignment to a name decides its final binding; a name
    never assigned keeps the binding it had. *)
Lemma run_lookup sts g x :
  run sts g !! x =
  match last (assigned x sts) with
  | Some v => Some v
  | None => g !! x
  end.
Proof.
  revert g. induction sts as [|st sts IH]; intros g; [done|].
  rewrite run_cons, IH. destruct st as [| |y v]; simpl; try done.
  case_bool_decide as Hy.
  - subst y. rewrite last_cons.
    destruct (last (assigned x sts)); [done|].
    by rewrite lookup_insert_eq.
  - destruct (last (assigned x sts)); [done|].
    by rewrite lookup_insert_ne.
Qed.

(** Compiling and running a file line by line. *)
Lemma exec_module_cons l src g :
  exec_module (l :: src) g =
  match parse_line l with
  | Ok st => exec_module src (exec_stmt g st)
  | Raise e => Raise e
  end.
Proof.
  unfold exec_module. simpl.
  destruct (parse_line l) as [st|e]; simpl; [|done].
  by destruct (parse_module src).
Qed.

(** What importing a file and reading [__version__] gives, in terms of
    the statements of the file. *)
Lemma current_version_spec src g :
  current_version src g =
  match parse_module src with
  | Ok sts =>
      match last (assigned "__version__" sts) with
      | Some v => Ok v
      | None => getattr g "__version__"
      end
  | Raise e => Raise e
  end.
Proof.
  unfold current_version, exec_module.
  destruct (parse_module src) as [sts|e]; simpl; [|done].
  unfold getattr. rewrite run_lookup.
  by destruct (last (assigned "__version__" sts)).
Qed.

(** The step relation computes [run]. *)
Lemma steps_run sts g g' : steps sts g g' <-> g' = run sts g.
Proof.
  split.
  - induction 1 as [g|st sts g g' _ IH]; [done|]. by rewrite run_cons.
  - intros ->. revert g. induction sts as [|st sts IH]; intros g.
    + constructor.
    + constructor. rewrite run_cons. apply IH.
Qed.

(** Every evaluation yields what [current_version] computes, and that
    result is the outcome of an evaluation. *)
Lemma evaluates_current_version src g r :
  evaluates src g r <-> r = current_version src g.
Proof.
  unfold current_version, exec_module. split.
  - intros [e He|sts g' Hp Hs].
    + by rewrite He.
    + apply steps_run in Hs as ->. by rewrite Hp.
  - intros ->. destruct (parse_module src) as [sts|e] eqn:Hp; simpl.
    + eapply eval_run; [done|]. by apply steps_run.
    + by apply eval_raise.
Qed.

(** A draft line is a comment to the interpreter. *)
Lemma is_draft_comment l :
  is_draft l = true -> exists body, parse_line l = Ok (SComment body).
Proof.
  unfold is_draft, scan_record.
  destruct (parse_line l) as [[| body |x v]|e]; try done.
  - eauto.
  - by case_bool_decide.
Qed.

(** Deleting the commented-out assignments changes nothing. *)
Lemma exec_module_without_drafts src g :
  exec_module (without_drafts src) g = exec_module src g.
Proof.
  revert g. induction src as [|l src IH]; intros g; [done|].
  unfold without_drafts in *. rewrite filter_cons.
  destruct (decide (is_draft l = false)) as [Hl|Hl].
  - rewrite !exec_module_cons. destruct (parse_line l); [apply IH|done].
  - apply not_false_is_true, is_draft_comment in Hl as [body Hl].
    rewrite exec_module_cons, Hl. simpl. apply IH.
Qed.

(** The module in the file: wherever it is imported, [__version__] ends
    bound to the literal of the last live assignment. *)
Lemma version_py_current g : current_version version_py g = Ok "0.9.0".
Proof. rewrite current_version_spec. reflexivity. Qed.

End Interpreter.

(** ** The release log *)

Section ReleaseLog.

(** In a strongly sorted list, an earlier element is related to every
    later one. *)
Lemma StronglySorted_lookup {A} (R : relation A) (l : list A) i j a b :
  StronglySorted R l -> i < j -> l !! i = Some a -> l !! j = Some b -> R a b.
Proof.
  intros Hs. revert i j.
  induction Hs as [|x l Hs IH Hx]; intros i j Hij Hi Hj; [done|].
  destruct j as [|j]; [lia|]. destruct i as [|i]; simplify_eq/=.
  - by eapply Forall_lookup_1 in Hx.
  - eapply IH; [|done..]. lia.
Qed.

(** A record line is commented exactly when the record is a draft. *)
Lemma scan_record_commented l rel v :
  scan_record l = Some (rel, v) -> commented l = negb rel.
Proof.
  unfold scan_record, parse_line, commented.
  destruct (skip_ws l) as [|c body] eqn:Hw; [done|].
  destruct (is_hash c) eqn:Hc.
  - destruct (lex_assign body) as [[x v']|]; [|done].
    case_bool_decide; naive_solver.
  - destruct l as [|c0 l0]; [done|]. destruct (is_space c0); [done|].
    destruct (lex_assign _) as [[x v']|]; [|done].
    case_bool_decide; naive_solver.
Qed.

(** Every record comes from the line its [line_no] points to. *)
Lemma records_from_sound src n r :
  r ∈ records_from n src ->
  n <= line_no r /\
  exists l, src !! (line_no r - n) = Some l /\
            scan_record l = Some (released r, version r).
Proof.
  revert n. induction src as [|l src IH]; intros n; simpl.
  { by intros ?%elem_of_nil. }
  assert (r ∈ records_from (S n) src ->
          n <= line_no r /\
          exists l', (l :: src) !! (line_no r - n) = Some l' /\
                     scan_record l' = Some (released r, version r)) as Hrest.
  { intros Hr. apply IH in Hr as (Hn & l' & Hl' & Hs). split; [lia|].
    exists l'. split; [|done].
    by replace (line_no r - n) with (S (line_no r - S n)) by lia. }
  destruct (scan_record l) as [[rel v]|] eqn:Hl; [|by apply Hrest].
  intros [->|Hr]%elem_of_cons; [|by apply Hrest].
  simpl. split; [lia|]. exists l. by rewrite Nat.sub_diag.
Qed.

(** Every record of the log comes from a line of the file that assigns
    its version, commented exactly when the record is a draft. *)
Lemma release_log_unfold : release_log = records_from 0 version_py.
Proof. reflexivity. Qed.

Lemma release_log_sound r :
  r ∈ release_log ->
  exists l, version_py !! line_no r = Some l
            /\ scan_record l = Some (released r, version r)
            /\ commented l = negb (released r).
Proof.
  rewrite release_log_unfold. intros Hr.
  apply records_from_sound in Hr as (_ & l & Hl & Hs).
  rewrite Nat.sub_0_r in Hl. exists l. split_and!; [done..|].
  apply (scan_record_commented _ _ _ Hs).
Qed.

(** The records of the file, read top to bottom, go from newest to
    oldest. *)
Lemma release_log_newest_first :
  StronglySorted (fun a b => semver_lt (version b) (version a) = true)
                 release_log.
Proof. apply (bool_decide_unpack _). by vm_compute. Qed.

(** Read bottom to top, they go from oldest to newest. *)
Lemma release_log_reverse_oldest_first :
  StronglySorted (fun a b => semver_lt (version a) (version b) = true)
                 (reverse release_log).
Proof. apply (bool_decide_unpack _). by vm_compute. Qed.

End ReleaseLog.

(** * The claims *)

(** C1 (evaluated on the code, which departs from the claim): wherever the
    module is imported, [__version__] ends bound to "0.9.0", while the
    released record with the greatest version is "1.0.4"; the exposed
    value is therefore not the newest release. *)
Theorem current_version_lags_newest_release (g : globals) :
  current_version version_py g = Ok "0.9.0"
  /\ version <$> newest_released release_log = Some "1.0.4"
  /\ current_version version_py g <> Ok "1.0.4".
Proof.
  rewrite version_py_current. split_and!; [done|by vm_compute|done].
Qed.

(** C2, as stated, fails: read top to bottom, the versions of the log are
    not increasing (the first record is "1.0.4", the second "1.0.3"). *)
Lemma top_to_bottom_not_increasing :
  ~ (forall i j ri rj,
       i < j -> release_log !! i = Some ri -> release_log !! j = Some rj ->
       semver_lt (version ri) (version rj) = true).
Proof.
  intros H. specialize (H 0 1 _ _ ltac:(lia) eq_refl eq_refl).
  by vm_compute in H.
Qed.

(** C2 (amended): read top to bottom, the versions of the log are strictly
    decreasing: each record's version is strictly smaller than that of
    every record above it. *)
Theorem top_to_bottom_strictly_decreasing i j ri rj :
  i < j -> release_log !! i = Some ri -> release_log !! j = Some rj ->
  semver_lt (version rj) (version ri) = true.
Proof.
  intros Hij Hi Hj.
  exact (StronglySorted_lookup _ _ _ _ _ _ release_log_newest_first Hij Hi Hj).
Qed.

Lemma top_to_bottom_strictly_decreasing_witness :
  0 < 5 /\ semver_lt "0.9.0" "1.0.4" = true.
Proof.
  split; [lia|].
  exact (top_to_bottom_strictly_decreasing 0 5 _ _ ltac:(lia) eq_refl eq_refl).
Defined.

(** C3: executing the live assignments top to bottom leaves [__version__]
    bound to the literal of the textually last live assignment, "0.9.0",
    and deleting the commented-out assignments does not change the
    result. *)
Theorem last_live_assignment_wins (g : globals) :
  current_version version_py g = Ok "0.9.0"
  /\ (exists sts, parse_module version_py = Ok sts
                  /\ last (assigned "__version__" sts) = Some "0.9.0")
  /\ length (without_drafts version_py) + 3 = length version_py
  /\ current_version (without_drafts version_py) g
     = current_version version_py g.
Proof.
  split_and!.
  - apply version_py_current.
  - destruct (parse_module version_py) as [sts|e] eqn:Hp; [|by vm_compute in Hp].
    exists sts. split; [done|].
    assert (match parse_module version_py with
            | Ok sts => assigned "__version__" sts
            | Raise _ => []
            end = assigned "__version__" sts) as <- by (by rewrite Hp).
    by vm_compute.
  - by vm_compute.
  - unfold current_version. by rewrite exec_module_without_drafts.
Qed.

(** C4: a record is unreleased exactly when its assignment line carries the
    leading comment marker; the unreleased records are "0.0.3", "0.0.2" and
    "0.0.1", the six others, "1.0.4" down to "0.9.0", are released. *)
Theorem drafts_are_the_commented_records :
  Forall (fun r => exists l,
            version_py !! line_no r = Some l
            /\ scan_record l = Some (released r, version r)
            /\ (released r = false <-> commented l = true))
         release_log
  /\ version <$> filter (fun r => released r = false) release_log
     = ["0.0.3"; "0.0.2"; "0.0.1"]
  /\ version <$> filter (fun r => released r = true) release_log
     = ["1.0.4"; "1.0.3"; "1.0.2"; "1.0.1"; "1.0.0"; "0.9.0"].
Proof.
  split_and!; [|by vm_compute..].
  apply Forall_forall. intros r Hr.
  apply release_log_sound in Hr as (l & Hl & Hs & Hc).
  exists l. split_and!; [done..|].
  rewrite Hc. by destruct (released r).
Qed.

(** C5: the version of every record of the log is a semantic version
    string, a non-empty dot-separated sequence of decimal numbers; the log
    has nine records. *)
Theorem versions_are_semver :
  Forall (fun r => is_semver (version r) = true) release_log
  /\ length release_log = 9.
Proof. split; [|by vm_compute]. apply (bool_decide_unpack _). by vm_compute. Qed.

(** C6: read bottom to top, the versions of the log are strictly increasing
    under the component-wise order. *)
Theorem bottom_to_top_strictly_increasing i j ri rj :
  i < j ->
  reverse release_log !! i = Some ri -> reverse release_log !! j = Some rj ->
  semver_lt (version ri) (version rj) = true.
Proof.
  intros Hij Hi Hj.
  exact (StronglySorted_lookup _ _ _ _ _ _
           release_log_reverse_oldest_first Hij Hi Hj).
Qed.

Lemma bottom_to_top_strictly_increasing_witness :
  2 < 3 /\ semver_lt "0.0.3" "0.9.0" = true.
Proof.
  split; [lia|].
  exact (bottom_to_top_strictly_increasing 2 3 _ _ ltac:(lia) eq_refl eq_refl).
Defined.

(** C7: evaluating the module and reading the version is total and never
    raises: in every namespace there is an evaluation, it yields a version
    string (a semantic version, and the version of a record of the log),
    and no evaluation ends in an error. *)
Theorem evaluation_never_raises (g : globals) :
  (exists v, current_version version_py g = Ok v
             /\ is_semver v = true
             /\ v ∈ (version <$> release_log)
             /\ evaluates version_py g (Ok v))
  /\ (forall e, ~ evaluates version_py g (Raise e)).
Proof.
  split.
  - exists "0.9.0". split_and!.
    + apply version_py_current.
    + by vm_compute.
    + apply (bool_decide_unpack _). by vm_compute.
    + apply evaluates_current_version. by rewrite version_py_current.
  - intros e He%evaluates_current_version.
    by rewrite version_py_current in He.
Qed.

(** C8: the nine version strings of the log are pairwise distinct, and any
    two of them are comparable: no entry duplicates another. *)
Theorem versions_pairwise_distinct :
  NoDup (version <$> release_log)
  /\ length release_log = 9
  /\ Forall (fun a =>
       Forall (fun b => a = b \/ semver_lt a b = true \/ semver_lt b a = true)
              (version <$> release_log))
       (version <$> release_log).
Proof.
  split_and!; [|by vm_compute|]; apply (bool_decide_unpack _); by vm_compute.
Qed.

(** C9: evaluation is deterministic and independent of the namespace the
    module is evaluated in: any two evaluations yield the same result. *)
Theorem evaluation_deterministic (g1 g2 : globals) (r1 r2 : result string) :
  evaluates version_py g1 r1 -> evaluates version_py g2 r2 -> r1 = r2.
Proof.
  intros H1%evaluates_current_version H2%evaluates_current_version.
  by rewrite H1, H2, !version_py_current.
Qed.

Lemma evaluation_deterministic_witness :
  evaluates version_py ∅ (Ok "0.9.0")
  /\ evaluates version_py {[ "__version__" := "dev" ]} (Ok "0.9.0")
  /\ @Ok string "0.9.0" = Ok "0.9.0".
Proof.
  assert (forall g, evaluates version_py g (Ok "0.9.0")) as Hev.
  { intros g. apply evaluates_current_version. by rewrite version_py_current. }
  split_and!; [apply Hev..|].
  exact (evaluation_deterministic ∅ {[ "__version__" := "dev" ]} _ _
           (Hev _) (Hev _)).
Defined.

(** * Further properties of the module *)

Section ModuleEffect.

Implicit Types (g : globals) (sts : list stmt) (src : list string).

(** A name no statement assigns receives no value. *)
Lemma assigned_not_target x sts : x ∉ targets sts -> assigned x sts = [].
Proof.
  induction sts as [|[| body |y v] sts IH]; simpl; try done.
  intros Hx. apply not_elem_of_cons in Hx as [Hxy Hx].
  rewrite bool_decide_eq_false_2 by done. by apply IH.
Qed.

(** The statements of the file assign [__version__] and nothing else, six
    times, the last time the literal "0.9.0". *)
Lemma version_py_statements :
  exists sts,
    parse_module version_py = Ok sts
    /\ targets sts = replicate 6 "__version__"
    /\ last (assigned "__version__" sts) = Some "0.9.0".
Proof.
  destruct (parse_module version_py) as [sts|e] eqn:Hp; [|by vm_compute in Hp].
  exists sts. split; [done|].
  assert (match parse_module version_py with
          | Ok sts => targets sts = replicate 6 "__version__"
                      /\ last (assigned "__version__" sts) = Some "0.9.0"
          | Raise _ => False
          end) as H by (by vm_compute).
  by rewrite Hp in H.
Qed.

(** On the string bindings of [g], executing the file writes
    [__version__ := "0.9.0"] and nothing else. *)
Lemma version_py_effect g :
  exec_module version_py g = Ok (<["__version__" := "0.9.0"]> g).
Proof.
  destruct version_py_statements as (sts & Hp & Ht & Hl).
  unfold exec_module. rewrite Hp. simpl. f_equal.
  apply map_eq. intros x. rewrite run_lookup.
  destruct (decide (x = "__version__")) as [->|Hx].
  - by rewrite Hl, lookup_insert_eq.
  - rewrite assigned_not_target, lookup_insert_ne; [done..|].
    rewrite Ht. by intros [? _]%elem_of_replicate.
Qed.

(** The released records of a file that compiles are its live assignments
    of [__version__], in the same order. *)
Lemma released_versions_assigned src n sts :
  parse_module src = Ok sts ->
  version <$> filter (fun r => released r = true) (records_from n src)
  = assigned "__version__" sts.
Proof.
  revert n sts. induction src as [|l src IH]; intros n sts; simpl.
  { by intros [= <-]. }
  unfold scan_record.
  destruct (parse_line l) as [st|e]; simpl; [|done].
  destruct (parse_module src) as [sts'|e]; simpl; [|done].
  intros [= <-]. specialize (IH (S n) sts' eq_refl).
  destruct st as [| body |x v]; simpl; try done.
  - destruct (lex_assign body) as [[x v]|]; [|done].
    case_bool_decide; [|done].
    by rewrite filter_cons_False.
  - case_bool_decide; [|done].
    rewrite filter_cons_True by done. by rewrite fmap_cons, IH.
Qed.

(** Every draft of the log is older than every release. *)
Lemma release_log_drafts_first :
  Forall (fun r =>
    Forall (fun d =>
      released r = true -> released d = false ->
      semver_lt (version d) (version r) = true) release_log) release_log.
Proof. apply (bool_decide_unpack _). by vm_compute. Qed.

End ModuleEffect.

(** X1: executing the module in any namespace binds [__version__] to
    "0.9.0" and touches no other name of the program: every name other than
    [__version__] and the runtime's own [__builtins__] keeps the binding it
    had, and stays unbound if it was unbound. *)
Theorem module_touches_only_version (g : globals) (x : string) :
  x ≠ "__version__" -> x ≠ "__builtins__" ->
  exists g',
    exec_module version_py g = Ok g'
    /\ g' !! "__version__" = Some "0.9.0"
    /\ g' !! x = g !! x.
Proof.
  intros Hx _. eexists. split; [apply version_py_effect|].
  by rewrite lookup_insert_eq, lookup_insert_ne.
Qed.

Lemma module_touches_only_version_witness :
  exists g',
    exec_module version_py (<["spam" := "eggs"]> ∅) = Ok g'
    /\ g' !! "__version__" = Some "0.9.0"
    /\ g' !! "spam" = (<["spam" := "eggs"]> ∅ : globals) !! "spam".
Proof.
  exact (module_touches_only_version (<["spam" := "eggs"]> ∅) "spam"
           ltac:(discriminate) ltac:(discriminate)).
Defined.

(** X2: executing the module again in the namespace it produced (a reload)
    changes nothing. *)
Theorem reload_is_idempotent (g g' : globals) :
  exec_module version_py g = Ok g' -> exec_module version_py g' = Ok g'.
Proof.
  rewrite !version_py_effect. intros [= <-]. by rewrite insert_insert_eq.
Qed.

Lemma reload_is_idempotent_witness :
  exec_module version_py (<["__version__" := "0.9.0"]> ∅)
  = Ok (<["__version__" := "0.9.0"]> ∅).
Proof.
  exact (reload_is_idempotent ∅ (<["__version__" := "0.9.0"]> ∅)
           (version_py_effect ∅)).
Defined.

(** X3: the version the module exposes is that of the bottom-most released
    record of the file, which is the oldest release: every released record
    has that version or a strictly greater one. *)
Theorem exposed_version_is_oldest_release (g : globals) :
  exists r,
    last (filter (fun r => released r = true) release_log) = Some r
    /\ current_version version_py g = Ok (version r)
    /\ Forall (fun r' => released r' = true ->
                 version r' = version r
                 \/ semver_lt (version r) (version r') = true)
              release_log.
Proof.
  destruct version_py_statements as (sts & Hp & _ & Hl).
  pose proof (released_versions_assigned version_py 0 sts Hp) as Hv.
  rewrite <- release_log_unfold in Hv.
  rewrite <- Hv, fmap_last in Hl.
  destruct (last (filter _ release_log)) as [r|]; [|done].
  injection Hl as Hr. exists r. split_and!; [done| |].
  - by rewrite version_py_current, Hr.
  - rewrite Hr. apply (bool_decide_unpack _). by vm_compute.
Qed.

(** X4: every record carries a note of at least one line, three records
    are commented out, and the comment lines of the file are exactly the
    note lines of the records together with the three commented-out
    assignments: as texts they are a permutation of one another, so no
    comment stands before the first record, is lost or is altered. *)
Theorem every_record_has_a_note :
  Forall (fun r => 0 < length (note r)) release_log
  /\ length (filter (fun r => released r = false) release_log) = 3
  /\ comment_bodies version_py
     ≡ₚ concat (note <$> release_log)
        ++ comment_bodies
             (record_lines version_py
                (filter (fun r => released r = false) release_log)).
Proof.
  split_and!; [|by vm_compute|]; apply (bool_decide_unpack _); by vm_compute.
Qed.

(** X5: every commented-out record is older than every released one: once
    the log has a release, no draft follows it. *)
Theorem drafts_predate_releases i j r d :
  release_log !! i = Some r -> release_log !! j = Some d ->
  released r = true -> released d = false ->
  semver_lt (version d) (version r) = true.
Proof.
  intros Hr%list_elem_of_lookup_2 Hd%list_elem_of_lookup_2.
  pose proof release_log_drafts_first as H.
  rewrite Forall_forall in H. specialize (H r Hr).
  rewrite Forall_forall in H. by apply H.
Qed.

Lemma drafts_predate_releases_witness :
  semver_lt "0.0.3" "0.9.0" = true.
Proof.
  exact (drafts_predate_releases 5 6 _ _ eq_refl eq_refl eq_refl eq_refl).
Defined.
